(** * Food e-commerce backend: a shallow embedding of [main.py] and [schemas.py]

    The development follows the two source files.

    - Python values are an inductive type; a [dict] is a [gmap string Value].
    - A Python [float] is an IEEE 754 binary64 number, so it is Rocq's
      primitive [float]: the operations round exactly as CPython's do and
      the literals ([9.99], [0.01], ...) denote the same doubles.
    - A Python [int] is a [Z]; multiplying a float by an int first converts
      the int to a double, which raises [OverflowError] when it does not fit.
    - Handlers run in a state-and-exception monad over the document store;
      [try]/[except] is a combinator of that monad. *)

From Stdlib Require Import ZArith Floats Ascii.
From stdpp Require Import gmap strings list fin_maps pretty.

#[local] Set Warnings "-inexact-float,-register-all".

(** ** Python values and documents *)

(** A [bson.ObjectId] is a 12-byte value; it is kept as the number its bytes
    spell, most significant first. *)
Definition ObjectId : Type := N.

Inductive Value : Type :=
| VNone
| VBool (b : bool)
| VInt (z : Z)
| VFloat (f : float)
| VStr (s : string)
| VObjectId (o : ObjectId)
| VList (l : list Value)
| VDict (d : gmap string Value).

Abbreviation Doc := (gmap string Value).

Definition hex_digit (n : N) : ascii :=
  match n with
  | 0 => "0" | 1 => "1" | 2 => "2" | 3 => "3" | 4 => "4" | 5 => "5"
  | 6 => "6" | 7 => "7" | 8 => "8" | 9 => "9" | 10 => "a" | 11 => "b"
  | 12 => "c" | 13 => "d" | 14 => "e" | _ => "f"
  end%N%char.

Fixpoint hex_fixed (digits : nat) (n : N) (acc : string) : string :=
  match digits with
  | O => acc
  | S k => hex_fixed k (n / 16)%N (String (hex_digit (n mod 16)%N) acc)
  end.

(** [str(oid)] for an [ObjectId]: its 24 lowercase hexadecimal digits. *)
Definition ObjectId_str (o : ObjectId) : string := hex_fixed 24 o "".

(** ** Exceptions and results *)

Inductive Exception : Type :=
| HTTPException (status_code : Z) (detail : string)
| OverflowError (msg : string)
| KeyError (key : string)
| Unmodelled (what : string).

(** [str(e)], as the handlers put it in the [detail] of a 500 response. *)
Definition Exception_str (e : Exception) : string :=
  match e with
  | HTTPException status_code detail => pretty status_code +:+ ": " +:+ detail
  | OverflowError msg => msg
  | KeyError key => "'" +:+ key +:+ "'"
  | Unmodelled what => what
  end.

Inductive Result (A : Type) : Type :=
| Return (a : A)
| Raise (e : Exception).
Arguments Return {A} a.
Arguments Raise {A} e.

#[export] Instance Result_ret : MRet Result := @Return.
#[export] Instance Result_bind : MBind Result := λ A B f r,
  match r with
  | Return a => f a
  | Raise e => Raise e
  end.

(** ** The document store *)

Record Database : Type := {
  collections : gmap string (list Doc);
  next_oid : ObjectId
}.

Definition collection (db : Database) (collection_name : string) : list Doc :=
  default [] (collections db !! collection_name).

(** A computation of a handler: it reads and writes the store and either
    returns or raises. What was written before an exception stays written. *)
Definition M (A : Type) : Type := Database → Result A * Database.

#[export] Instance M_ret : MRet M := λ A a db, (Return a, db).
#[export] Instance M_bind : MBind M := λ A B f c db,
  match c db with
  | (Return a, db') => f a db'
  | (Raise e, db') => (Raise e, db')
  end.

Definition raise {A : Type} (e : Exception) : M A := λ db, (Raise e, db).

Definition lift {A : Type} (r : Result A) : M A := λ db, (r, db).

(** [try: body / except ... as e: handler e]. *)
Definition try_except {A : Type} (body : M A) (handler : Exception → M A) : M A :=
  λ db,
    match body db with
    | (Return a, db') => (Return a, db')
    | (Raise e, db') => handler e db'
    end.

(** [except Exception as e: raise HTTPException(status_code=500, detail=str(e))] *)
Definition except_Exception_500 {A : Type} (e : Exception) : M A :=
  raise (HTTPException 500 (Exception_str e)).

(** [except HTTPException: raise], followed by the clause above. *)
Definition except_HTTPException_reraise {A : Type} (e : Exception) : M A :=
  match e with
  | HTTPException _ _ => raise e
  | _ => except_Exception_500 e
  end.

(** *** The persistence accessor *)

(** An exact-match test of one filter entry: the document has the field and
    its value is that string. *)
Definition field_is (d : Doc) (k s : string) : bool :=
  match d !! k with
  | Some (VStr s') => String.eqb s' s
  | _ => false
  end.

Definition doc_matches (filter_dict : gmap string string) (d : Doc) : bool :=
  map_fold (λ k s acc, acc && field_is d k s) true filter_dict.

(** Modelled from the spec: [database.create_document], whose file is not
    among the sources. Section 4.2: it "inserts a structural representation
    of the entity into the named collection and returns a newly generated
    unique identifier". The identifier is drawn from a counter of the store
    and returned in its string form. This accessor always succeeds; what
    [create_order] does with an accessor that raises is stated over
    [create_order_over], which takes the accessor as a parameter. *)
Definition create_document (collection_name : string) (data : Doc) : M string :=
  λ db,
    let oid := next_oid db in
    let stored := <["_id" := VObjectId oid]> data in
    (Return (ObjectId_str oid),
     {| collections :=
          <[collection_name := collection db collection_name ++ [stored]]>
            (collections db);
        next_oid := N.succ oid |}).

(** Modelled from the spec: [database.get_documents], whose file is not among
    the sources. Section 4.2: it "returns all matching documents", where
    "filtering is exact-match equality on a single optional field"; the
    filters the handlers build map field names to strings. *)
Definition get_documents (collection_name : string)
    (filter_dict : gmap string string) : M (list Doc) :=
  λ db, (Return (List.filter (doc_matches filter_dict) (collection db collection_name)), db).

(** ** [schemas.py] *)

Record OrderItem : Type := {
  product_id : string;
  title : string;
  price : float;
  quantity : Z;
  image_url : option string
}.

Record Order : Type := {
  customer_name : string;
  customer_email : string;
  customer_address : string;
  items : list OrderItem;
  subtotal : float;
  tax : float;
  total : float;
  status : string
}.

(** The body of a [POST /api/orders] request once its JSON is read: every
    required field is there with a value of its type, and [status], the one
    field with a default, may be left out. *)
Record OrderBody : Type := {
  body_customer_name : string;
  body_customer_email : string;
  body_customer_address : string;
  body_items : list OrderItem;
  body_subtotal : float;
  body_tax : float;
  body_total : float;
  body_status : option string
}.

(** [Field(..., ge=0)] on a float and [Field(..., ge=1)] on an int. A NaN
    fails [ge=0]; an infinity passes it. *)
Definition ge_float (bound v : float) : bool := (bound <=? v)%float.
Definition ge_int (bound v : Z) : bool := (bound <=? v)%Z.

Definition OrderItem_valid (item : OrderItem) : bool :=
  ge_float 0 (price item) && ge_int 1 (quantity item).

(** Building an [Order] from a request body: the constraints of the
    [Field]s, and [status] defaulting to ["pending"]. [EmailStr] hands the
    address to the email-validator package, which rejects it or returns it
    normalised; that package is taken as given, as the argument [EmailStr]. *)
Definition Order_validate (EmailStr : string → option string)
    (body : OrderBody) : option Order :=
  match EmailStr (body_customer_email body) with
  | None => None
  | Some email =>
      if forallb OrderItem_valid (body_items body)
         && (1 <=? length (body_items body))%nat
         && ge_float 0 (body_subtotal body)
         && ge_float 0 (body_tax body)
         && ge_float 0 (body_total body)
      then Some {| customer_name := body_customer_name body;
                   customer_email := email;
                   customer_address := body_customer_address body;
                   items := body_items body;
                   subtotal := body_subtotal body;
                   tax := body_tax body;
                   total := body_total body;
                   status := default "pending" (body_status body) |}
      else None
  end.

(** The structural representation of a model, as a document. *)
Definition OrderItem_dump (item : OrderItem) : Doc :=
  {[ "product_id" := VStr (product_id item);
     "title" := VStr (title item);
     "price" := VFloat (price item);
     "quantity" := VInt (quantity item);
     "image_url" := from_option VStr VNone (image_url item) ]}.

Definition Order_dump (order : Order) : Doc :=
  {[ "customer_name" := VStr (customer_name order);
     "customer_email" := VStr (customer_email order);
     "customer_address" := VStr (customer_address order);
     "items" := VList ((λ item, VDict (OrderItem_dump item)) <$> items order);
     "subtotal" := VFloat (subtotal order);
     "tax" := VFloat (tax order);
     "total" := VFloat (total order);
     "status" := VStr (status order) ]}.

(** ** [main.py]: the order endpoints *)

(** An [int] operand of a float operation is converted to the nearest double
    (ties to even); CPython raises [OverflowError] when that is out of range. *)
Definition int_to_float (n : Z) : Result float :=
  let f := SF2Prim (binary_normalize prec emax n 0 false) in
  if is_infinity f
  then Raise (OverflowError "int too large to convert to float")
  else Return f.

(** [item.price * item.quantity] *)
Definition line_total (item : OrderItem) : Result float :=
  q ← int_to_float (quantity item);
  Return (price item * q)%float.

(** [sum(item.price * item.quantity for item in its)], continued from the
    partial sum [acc]: the generator is drawn one element at a time and each
    is added on the right. (From CPython 3.12 on, [sum] also carries a
    compensation term for floats; on a single element the two agree, and the
    properties of [create_order] below hold of whatever value the sum has.) *)
Fixpoint sum_line_totals (acc : float) (its : list OrderItem) : Result float :=
  match its with
  | [] => Return acc
  | item :: rest =>
      x ← line_total item;
      sum_line_totals (acc + x)%float rest
  end.

(** [sum] starts from the int [0], which float arithmetic takes as [0.0]. *)
Definition computed_subtotal (order : Order) : Result float :=
  sum_line_totals 0%float (items order).

(** [x > y] on floats. *)
Definition gt_float (x y : float) : bool := (y <? x)%float.

Definition subtotal_mismatch : Exception :=
  HTTPException 400 "Subtotal does not match items total".
Definition total_mismatch : Exception :=
  HTTPException 400 "Total does not match subtotal + tax".

(** The [try] block of [create_order]. *)
Definition create_order_body (order : Order) : M Doc :=
  computed ← lift (computed_subtotal order);
  if gt_float (abs (computed - subtotal order)) 0.01 then raise subtotal_mismatch
  else
    let total_calc := (subtotal order + tax order)%float in
    if gt_float (abs (total_calc - total order)) 0.01 then raise total_mismatch
    else
      new_id ← create_document "order" (Order_dump order);
      mret ({[ "id" := VStr new_id ]} : Doc).

Definition create_order (order : Order) : M Doc :=
  try_except (create_order_body order) except_HTTPException_reraise.

(** [POST /api/orders]: the body is validated against [Order] before the
    handler runs; a body that fails is answered 422 by the framework, with a
    list of the failed constraints that is not represented here. *)
Definition post_orders (EmailStr : string → option string) (body : OrderBody) : M Doc :=
  match Order_validate EmailStr body with
  | None => raise (HTTPException 422 "Unprocessable Entity")
  | Some order => create_order order
  end.

(** [d["id"] = str(d.pop("_id"))]. Every identifier the store hands out is
    an [ObjectId]; [str] of any other value is left out of the embedding. *)
Definition expose_id (d : Doc) : Result Doc :=
  match d !! "_id" with
  | None => Raise (KeyError "_id")
  | Some (VObjectId oid) => Return (<["id" := VStr (ObjectId_str oid)]> (delete "_id" d))
  | Some _ => Raise (Unmodelled "str of an identifier that is not an ObjectId")
  end.

(** [for d in docs: d["id"] = str(d.pop("_id"))] *)
Fixpoint expose_ids (docs : list Doc) : Result (list Doc) :=
  match docs with
  | [] => Return []
  | d :: rest =>
      d' ← expose_id d;
      rest' ← expose_ids rest;
      Return (d' :: rest')
  end.

Definition list_orders : M (list Doc) :=
  try_except
    (docs ← get_documents "order" ∅;
     lift (expose_ids docs))
    except_Exception_500.

(** ** [main.py]: the product endpoints *)

(** [{"category": category} if category else {}]: [None] and the empty
    string are both falsy. *)
Definition filter_query (category : option string) : gmap string string :=
  match category with
  | None => ∅
  | Some c => if String.eqb c "" then ∅ else {[ "category" := c ]}
  end.

Definition list_products (category : option string) : M (list Doc) :=
  try_except
    (docs ← get_documents "product" (filter_query category);
     lift (expose_ids docs))
    except_Exception_500.

Definition demo_product (title description : string) (price : float)
    (category image_url : string) (rating : float) : Doc :=
  {[ "title" := VStr title;
     "description" := VStr description;
     "price" := VFloat price;
     "category" := VStr category;
     "image_url" := VStr image_url;
     "rating" := VFloat rating;
     "in_stock" := VBool true ]}.

Definition demo : list Doc :=
  [ demo_product "Margherita Pizza" "Classic tomato, mozzarella, basil" 9.99
      "Pizza" "https://images.unsplash.com/photo-1548365328-9f547fb0953d" 4.7;
    demo_product "Cheeseburger" "Juicy beef patty with cheddar" 8.49
      "Burgers" "https://images.unsplash.com/photo-1550547660-d9450f859349" 4.5;
    demo_product "Caesar Salad" "Crisp romaine with parmesan" 7.25
      "Salads" "https://images.unsplash.com/photo-1568605114967-8130f3a36994" 4.3;
    demo_product "Iced Latte" "Chilled espresso with milk" 4.5
      "Drinks" "https://images.unsplash.com/photo-1541167760496-1628856ab772" 4.6 ].

(** [for p in demo: create_document("product", p)] *)
Fixpoint create_all (collection_name : string) (docs : list Doc) : M unit :=
  match docs with
  | [] => mret tt
  | p :: rest =>
      _ ← create_document collection_name p;
      create_all collection_name rest
  end.

Definition seed_response (seeded : bool) (count : nat) : Doc :=
  {[ "seeded" := VBool seeded; "count" := VInt (Z.of_nat count) ]}.

Definition seed_products : M Doc :=
  try_except
    (existing ← get_documents "product" ∅;
     match existing with
     | _ :: _ => mret (seed_response false (length existing))
     | [] =>
         _ ← create_all "product" demo;
         mret (seed_response true (length demo))
     end)
    except_Exception_500.

(** ** Notions the properties are stated with *)

(** A stored document carries an [ObjectId] under ["_id"]; the store sees to
    it for every document it inserts. *)
Definition doc_ok (d : Doc) : Prop := ∃ oid, d !! "_id" = Some (VObjectId oid).

Definition db_ok (db : Database) : Prop :=
  ∀ name, Forall doc_ok (collection db name).

(** [out] shows [stored] the way the list endpoints do: no ["_id"], the
    identifier's string under ["id"], every other field as stored. *)
Definition id_exposed (stored out : Doc) : Prop :=
  ∃ oid,
    stored !! "_id" = Some (VObjectId oid)
    ∧ out !! "_id" = None
    ∧ out !! "id" = Some (VStr (ObjectId_str oid))
    ∧ ∀ k, k ≠ "_id" → k ≠ "id" → out !! k = stored !! k.

(** The document's category field is the string [c]. *)
Definition has_category (c : string) (d : Doc) : Prop :=
  d !! "category" = Some (VStr c).

#[export] Instance has_category_dec (c : string) (d : Doc) :
  Decision (has_category c d).
Proof.
  unfold has_category.
  destruct (d !! "category") as [[| | | |s| | |]|]; try (right; congruence).
  destruct (decide (s = c)) as [->|Hne]; [by left|right; congruence].
Defined.

(** The documents [docs] as the store holds them once inserted one after
    the other, the first under the identifier [first]. *)
Definition with_ids (first : ObjectId) (docs : list Doc) : list Doc :=
  imap (λ i p, <["_id" := VObjectId (first + N.of_nat i)%N]> p) docs.

(** ** Sample inputs *)

Definition empty_db : Database := {| collections := ∅; next_oid := 0%N |}.

Definition sample_item (price : float) (quantity : Z) : OrderItem :=
  {| product_id := "p1"; title := "Margherita Pizza";
     price := price; quantity := quantity; image_url := None |}.

(** A one-line order with the given unit price, quantity and declared sums. *)
Definition sample_order (price : float) (quantity : Z)
    (subtotal tax total : float) : Order :=
  {| customer_name := "Ana"; customer_email := "ana@example.com";
     customer_address := "1 Main St";
     items := [sample_item price quantity];
     subtotal := subtotal; tax := tax; total := total;
     status := "pending" |}.

Definition with_status (s : string) (o : Order) : Order :=
  {| customer_name := customer_name o; customer_email := customer_email o;
     customer_address := customer_address o; items := items o;
     subtotal := subtotal o; tax := tax o; total := total o; status := s |}.

(** A body for the order of the specification's first example. *)
Definition sample_body (status : option string) : OrderBody :=
  {| body_customer_name := "Ana"; body_customer_email := "ana@example.com";
     body_customer_address := "1 Main St";
     body_items := [sample_item 9.99 1];
     body_subtotal := 9.99; body_tax := 0.80; body_total := 10.79;
     body_status := status |}.

(** An address check that lets every address through unchanged. *)
Definition any_email (address : string) : option string := Some address.

(** The store after seeding an empty one. *)
Definition seeded_db : Database := (seed_products empty_db).2.

(** The titles of the documents of an answer. *)
Definition titles (r : Result (list Doc)) : Result (list (option Value)) :=
  match r with
  | Return docs => Return ((λ d : Doc, d !! "title") <$> docs)
  | Raise e => Raise e
  end.

(** ** [schemas.py]: products, and [create_product] of [main.py] *)

Module Product.

Record t : Type := {
  title : string;
  description : option string;
  price : float;
  category : string;
  image_url : option string;
  rating : option float;
  in_stock : bool
}.

(** The body of a [POST /api/products] request. [description] and
    [image_url] are [None] when left out or null. [rating] has a default
    and admits null, so it is left out ([None]), null ([Some None]) or a
    number; [in_stock] is left out or a boolean. *)
Record Body : Type := {
  body_title : string;
  body_description : option string;
  body_price : float;
  body_category : string;
  body_image_url : option string;
  body_rating : option (option float);
  body_in_stock : option bool
}.

(** [Field(4.5, ge=0, le=5)] on an [Optional[float]]: the default when left
    out, [None] when null, and the two bounds on a number. *)
Definition rating_validate (r : option (option float)) : option (option float) :=
  match r with
  | None => Some (Some 4.5%float)
  | Some None => Some None
  | Some (Some x) => if ge_float 0 x && (x <=? 5)%float then Some (Some x) else None
  end.

Definition validate (body : Body) : option t :=
  if ge_float 0 (body_price body) then
    match rating_validate (body_rating body) with
    | Some r =>
        Some {| title := body_title body;
                description := body_description body;
                price := body_price body;
                category := body_category body;
                image_url := body_image_url body;
                rating := r;
                in_stock := default true (body_in_stock body) |}
    | None => None
    end
  else None.

(** The structural representation of a product, as a document. *)
Definition dump (p : t) : Doc :=
  {[ "title" := VStr (title p);
     "description" := from_option VStr VNone (description p);
     "price" := VFloat (price p);
     "category" := VStr (category p);
     "image_url" := from_option VStr VNone (image_url p);
     "rating" := from_option VFloat VNone (rating p);
     "in_stock" := VBool (in_stock p) ]}.

End Product.

Definition create_product (product : Product.t) : M Doc :=
  try_except
    (new_id ← create_document "product" (Product.dump product);
     mret ({[ "id" := VStr new_id ]} : Doc))
    except_Exception_500.

(** [POST /api/products]: the body is validated against [Product] first. *)
Definition post_products (body : Product.Body) : M Doc :=
  match Product.validate body with
  | None => raise (HTTPException 422 "Unprocessable Entity")
  | Some product => create_product product
  end.

(** The documents a call of [list_products] draws from the store. *)
Definition selected_products (category : option string) (db : Database) : list Doc :=
  List.filter (doc_matches (filter_query category)) (collection db "product").

(** The prices and quantities of the lines of an order. *)
Definition amounts (its : list OrderItem) : list (float * Z) :=
  (λ item, (price item, quantity item)) <$> its.

(** ** The routes of [main.py] *)

Definition read_root : Doc :=
  {[ "message" := VStr "Food E-commerce Backend is running" ]}.

(** The requests the application routes to a handler that uses the store or
    returns a fixed answer ([GET /test] inspects the connection itself and
    is left out). *)
Inductive Request : Type :=
| GetRoot
| PostProduct (body : Product.Body)
| GetProducts (category : option string)
| PostSeed
| PostOrder (body : OrderBody)
| GetOrders.

Inductive Response : Type :=
| OneDoc (d : Doc)
| ManyDocs (docs : list Doc).

Definition route (EmailStr : string → option string) (req : Request) : M Response :=
  match req with
  | GetRoot => mret (OneDoc read_root)
  | PostProduct body => d ← post_products body; mret (OneDoc d)
  | GetProducts category => docs ← list_products category; mret (ManyDocs docs)
  | PostSeed => d ← seed_products; mret (OneDoc d)
  | PostOrder body => d ← post_orders EmailStr body; mret (OneDoc d)
  | GetOrders => docs ← list_orders; mret (ManyDocs docs)
  end.

(** The store after a sequence of requests, served one after the other. *)
Fixpoint serve_all (EmailStr : string → option string) (reqs : list Request)
    (db : Database) : Database :=
  match reqs with
  | [] => db
  | req :: rest => serve_all EmailStr rest (route EmailStr req db).2
  end.

(** ** [create_order] over any store accessor *)

(** The [try] block of [create_order] with [create_document] as a parameter:
    the same code, for an accessor that may raise or write as it pleases. *)
Definition create_order_body_over (store_create : string → Doc → M string)
    (order : Order) : M Doc :=
  computed ← lift (computed_subtotal order);
  if gt_float (abs (computed - subtotal order)) 0.01 then raise subtotal_mismatch
  else
    let total_calc := (subtotal order + tax order)%float in
    if gt_float (abs (total_calc - total order)) 0.01 then raise total_mismatch
    else
      new_id ← store_create "order" (Order_dump order);
      mret ({[ "id" := VStr new_id ]} : Doc).

Definition create_order_over (store_create : string → Doc → M string)
    (order : Order) : M Doc :=
  try_except (create_order_body_over store_create order) except_HTTPException_reraise.

(** What the two [except] clauses of [create_order] make of an exception
    raised inside the [try] block. *)
Definition create_order_answer (e : Exception) : Exception :=
  match e with
  | HTTPException _ _ => e
  | _ => HTTPException 500 (Exception_str e)
  end.

(** Both consistency checks let the order through. *)
Definition checks_pass (o : Order) (cs : float) : Prop :=
  gt_float (abs (cs - subtotal o)) 0.01 = false
  ∧ gt_float (abs (subtotal o + tax o - total o)) 0.01 = false.

(** ** More sample inputs *)

Definition sample_product (category : string) : Product.t :=
  {| Product.title := "Garlic Bread"; Product.description := None;
     Product.price := 3.5; Product.category := category;
     Product.image_url := None; Product.rating := Some 4.5%float;
     Product.in_stock := true |}.

(** A store whose one product has lost its identifier. *)
Definition broken_db : Database :=
  {| collections := {[ "product" := [Product.dump (sample_product "Sides")] ]};
     next_oid := 1%N |}.

(** A body with the given lines, declaring their sum as 9.99. *)
Definition sample_body_of (its : list OrderItem) : OrderBody :=
  {| body_customer_name := "Ana"; body_customer_email := "ana@example.com";
     body_customer_address := "1 Main St";
     body_items := its;
     body_subtotal := 9.99; body_tax := 0; body_total := 9.99;
     body_status := None |}.

(** A product body that leaves out or sets the two fields with defaults. *)
Definition sample_product_body (rating : option (option float))
    (in_stock : option bool) : Product.Body :=
  {| Product.body_title := "Garlic Bread"; Product.body_description := None;
     Product.body_price := 3.5; Product.body_category := "Sides";
     Product.body_image_url := None; Product.body_rating := rating;
     Product.body_in_stock := in_stock |}.

(** The number of documents of an answer. *)
Definition count (r : Result (list Doc)) : Result nat :=
  match r with
  | Return docs => Return (length docs)
  | Raise e => Raise e
  end.

(** A body with the given lines and declared sums. *)
Definition sample_body_sums (its : list OrderItem)
    (subtotal tax total : float) : OrderBody :=
  {| body_customer_name := "Ana"; body_customer_email := "ana@example.com";
     body_customer_address := "1 Main St";
     body_items := its;
     body_subtotal := subtotal; body_tax := tax; body_total := total;
     body_status := None |}.

(** An accessor that writes nothing and raises, as the driver does for an
    int that does not fit in eight bytes. *)
Definition refusing_create (collection_name : string) (data : Doc) : M string :=
  raise (OverflowError "MongoDB can only handle up to 8-byte ints").

(** * Properties *)

(** ** The store *)

Lemma collection_create_document_eq (name : string) (data : Doc) (db : Database) :
  collection (create_document name data db).2 name
  = collection db name ++ [<["_id" := VObjectId (next_oid db)]> data].
Proof. unfold collection at 1; simpl. by rewrite lookup_insert_eq. Qed.

Lemma collection_create_document_ne (name name' : string) (data : Doc) (db : Database) :
  name ≠ name' →
  collection (create_document name data db).2 name' = collection db name'.
Proof. intros Hne. unfold collection; simpl. by rewrite lookup_insert_ne. Qed.

Lemma create_document_returns (name : string) (data : Doc) (db : Database) :
  (create_document name data db).1 = Return (ObjectId_str (next_oid db)).
Proof. reflexivity. Qed.

(** ** [create_order] *)

(** The only exception the subtotal computation can raise is the
    [OverflowError] of an int-to-float conversion. *)
Lemma sum_line_totals_raises (its : list OrderItem) (acc : float) (e : Exception) :
  sum_line_totals acc its = Raise e →
  e = OverflowError "int too large to convert to float".
Proof.
  revert acc. induction its as [|item rest IH]; intros acc; simpl; [done|].
  unfold line_total, int_to_float.
  destruct (is_infinity _); simpl; [congruence|]. apply IH.
Qed.

(** [create_order], once the subtotal of the items has a value. *)
Lemma create_order_eq (o : Order) (db : Database) (cs : float) :
  computed_subtotal o = Return cs →
  create_order o db =
    if gt_float (abs (cs - subtotal o)) 0.01 then (Raise subtotal_mismatch, db)
    else if gt_float (abs (subtotal o + tax o - total o)) 0.01
         then (Raise total_mismatch, db)
         else (Return {[ "id" := VStr (ObjectId_str (next_oid db)) ]},
               (create_document "order" (Order_dump o) db).2).
Proof.
  intros Hcs.
  unfold create_order, try_except, create_order_body, mbind, M_bind, lift.
  rewrite Hcs.
  destruct (gt_float (abs (cs - subtotal o)) 0.01); [done|].
  destruct (gt_float (abs (subtotal o + tax o - total o)) 0.01); done.
Qed.

(** When a quantity does not convert to a float the handler answers 500 and
    writes nothing. *)
Lemma create_order_overflow (o : Order) (db : Database) (e : Exception) :
  computed_subtotal o = Raise e →
  create_order o db
  = (Raise (HTTPException 500 "int too large to convert to float"), db).
Proof.
  intros Hcs. pose proof (sum_line_totals_raises _ _ _ Hcs) as ->.
  unfold create_order, try_except, create_order_body, mbind, M_bind, lift.
  by rewrite Hcs.
Qed.

(** Whatever the order, a failing [create_order] raises an [HTTPException]
    with status 400 or 500 and leaves the store as it was. *)
Lemma create_order_failure (o : Order) (db db' : Database) (e : Exception) :
  create_order o db = (Raise e, db') →
  db' = db ∧ ∃ status_code detail,
    e = HTTPException status_code detail ∧ (status_code = 400 ∨ status_code = 500)%Z.
Proof.
  destruct (computed_subtotal o) as [cs|e0] eqn:Hcs.
  - rewrite (create_order_eq _ _ _ Hcs).
    repeat case_match; intros [= <- <-]; split; try done;
      eexists _, _; (split; [reflexivity|]); auto.
  - rewrite (create_order_overflow _ _ _ Hcs). intros [= <- <-].
    split; [done|]. eexists _, _. split; [reflexivity|]. auto.
Qed.

(** C1. An order whose items give a subtotal [cs] with
    [abs(cs - order.subtotal) > 0.01] is refused with the subtotal-mismatch
    error (HTTP 400), and the store is left exactly as it was. *)
Theorem create_order_subtotal_mismatch (o : Order) (db : Database) (cs : float) :
  computed_subtotal o = Return cs →
  gt_float (abs (cs - subtotal o)) 0.01 = true →
  create_order o db
  = (Raise (HTTPException 400 "Subtotal does not match items total"), db).
Proof. intros Hcs Hgt. by rewrite (create_order_eq _ _ _ Hcs), Hgt. Qed.

(** C2. An order that passes the subtotal check and has
    [abs(order.subtotal + order.tax - order.total) > 0.01] is refused with
    the total-mismatch error (HTTP 400), and the store is left as it was. *)
Theorem create_order_total_mismatch (o : Order) (db : Database) (cs : float) :
  computed_subtotal o = Return cs →
  gt_float (abs (cs - subtotal o)) 0.01 = false →
  gt_float (abs (subtotal o + tax o - total o)) 0.01 = true →
  create_order o db
  = (Raise (HTTPException 400 "Total does not match subtotal + tax"), db).
Proof. intros Hcs Hsub Htot. by rewrite (create_order_eq _ _ _ Hcs), Hsub, Htot. Qed.

(** C3, amended. For an order whose subtotal expression has a value (every
    quantity converts to a float): whenever one of the two relationships is
    violated the answer is an [HTTPException] with status 400, not 500,
    carrying one of the two fixed messages; the subtotal is checked first,
    so its message is the one reported when it is violated, whatever the
    total. *)
Theorem create_order_violation_is_400 (o : Order) (db : Database) (cs : float) :
  computed_subtotal o = Return cs →
  gt_float (abs (cs - subtotal o)) 0.01
    || gt_float (abs (subtotal o + tax o - total o)) 0.01 = true →
  create_order o db
  = (Raise (HTTPException 400
              (if gt_float (abs (cs - subtotal o)) 0.01
               then "Subtotal does not match items total"
               else "Total does not match subtotal + tax")), db).
Proof.
  intros Hcs Hbad. rewrite (create_order_eq _ _ _ Hcs).
  destruct (gt_float (abs (cs - subtotal o)) 0.01); [done|].
  simpl in Hbad. by rewrite Hbad.
Qed.

(** C4. The order of the example, one line of price 9.99 and quantity 1 with
    subtotal 9.99, tax 0.80 and total 10.79, passes both checks whatever its
    other fields and whatever the store holds: its document is appended to
    the [order] collection and the new identifier is returned. *)
Theorem create_order_example (o : Order) (item : OrderItem) (db : Database) :
  items o = [item] →
  price item = 9.99%float →
  quantity item = 1%Z →
  subtotal o = 9.99%float →
  tax o = 0.80%float →
  total o = 10.79%float →
  computed_subtotal o = Return 9.99%float
  ∧ gt_float (abs (9.99 - subtotal o)) 0.01 = false
  ∧ gt_float (abs (subtotal o + tax o - total o)) 0.01 = false
  ∧ ∃ db',
      create_order o db
      = (Return {[ "id" := VStr (ObjectId_str (next_oid db)) ]}, db')
      ∧ collection db' "order"
        = collection db "order" ++ [<["_id" := VObjectId (next_oid db)]> (Order_dump o)].
Proof.
  intros Hitems Hprice Hqty Hsub Htax Htot.
  assert (Hcs : computed_subtotal o = Return 9.99%float).
  { unfold computed_subtotal. rewrite Hitems. simpl.
    unfold line_total. rewrite Hprice, Hqty. reflexivity. }
  assert (H1 : gt_float (abs (9.99 - subtotal o)) 0.01 = false)
    by (rewrite Hsub; reflexivity).
  assert (H2 : gt_float (abs (subtotal o + tax o - total o)) 0.01 = false)
    by (rewrite Hsub, Htax, Htot; reflexivity).
  repeat split; try done.
  eexists. rewrite (create_order_eq _ _ _ Hcs), H1, H2.
  split; [reflexivity|]. apply collection_create_document_eq.
Qed.

(** C10. The comparisons are strict. An order whose computed subtotal is
    off by exactly 0.01 while the total check does not fail, or whose
    subtotal check does not fail while subtotal + tax is off by exactly
    0.01, is accepted: its document is appended to the [order] collection
    and the new identifier is returned. *)
Theorem create_order_boundary_accepted (o : Order) (db : Database) (cs : float) :
  computed_subtotal o = Return cs →
  (abs (cs - subtotal o) = 0.01%float
   ∧ gt_float (abs (subtotal o + tax o - total o)) 0.01 = false)
  ∨ (gt_float (abs (cs - subtotal o)) 0.01 = false
     ∧ abs (subtotal o + tax o - total o) = 0.01%float) →
  ∃ db',
    create_order o db
    = (Return {[ "id" := VStr (ObjectId_str (next_oid db)) ]}, db')
    ∧ collection db' "order"
      = collection db "order" ++ [<["_id" := VObjectId (next_oid db)]> (Order_dump o)].
Proof.
  intros Hcs Hedge. eexists. rewrite (create_order_eq _ _ _ Hcs).
  assert (gt_float (abs (cs - subtotal o)) 0.01 = false) as ->.
  { destruct Hedge as [[-> _]|[? _]]; [reflexivity|done]. }
  assert (gt_float (abs (subtotal o + tax o - total o)) 0.01 = false) as ->.
  { destruct Hedge as [[_ ?]|[_ ->]]; [done|reflexivity]. }
  split; [reflexivity|]. apply collection_create_document_eq.
Qed.

(** *** The theorems at concrete orders *)

(** The second example of the specification: two pizzas at 9.99 declared
    with subtotal 9.99. *)
Lemma create_order_subtotal_mismatch_witness :
  computed_subtotal (sample_order 9.99 2 9.99 0 9.99) = Return 19.98%float
  ∧ gt_float (abs (19.98 - subtotal (sample_order 9.99 2 9.99 0 9.99))) 0.01 = true
  ∧ create_order (sample_order 9.99 2 9.99 0 9.99) empty_db
    = (Raise (HTTPException 400 "Subtotal does not match items total"), empty_db).
Proof.
  split; [reflexivity|]. split; [reflexivity|].
  apply (create_order_subtotal_mismatch _ _ 19.98%float); reflexivity.
Defined.

Lemma create_order_total_mismatch_witness :
  computed_subtotal (sample_order 9.99 1 9.99 0.80 20) = Return 9.99%float
  ∧ gt_float (abs (9.99 - subtotal (sample_order 9.99 1 9.99 0.80 20))) 0.01 = false
  ∧ gt_float (abs (subtotal (sample_order 9.99 1 9.99 0.80 20)
                   + tax (sample_order 9.99 1 9.99 0.80 20)
                   - total (sample_order 9.99 1 9.99 0.80 20))) 0.01 = true
  ∧ create_order (sample_order 9.99 1 9.99 0.80 20) empty_db
    = (Raise (HTTPException 400 "Total does not match subtotal + tax"), empty_db).
Proof.
  split; [reflexivity|]. split; [reflexivity|]. split; [reflexivity|].
  apply (create_order_total_mismatch _ _ 9.99%float); reflexivity.
Defined.

(** Both relationships violated: the subtotal message is the one reported. *)
Lemma create_order_violation_is_400_witness :
  computed_subtotal (sample_order 9.99 2 9.99 0 50) = Return 19.98%float
  ∧ gt_float (abs (9.99 + 0 - 50)) 0.01 = true
  ∧ create_order (sample_order 9.99 2 9.99 0 50) empty_db
    = (Raise (HTTPException 400 "Subtotal does not match items total"), empty_db).
Proof.
  split; [reflexivity|]. split; [reflexivity|].
  apply (create_order_violation_is_400 (sample_order 9.99 2 9.99 0 50)
           empty_db 19.98%float); reflexivity.
Defined.

Lemma create_order_example_witness :
  ∃ db',
    create_order (sample_order 9.99 1 9.99 0.80 10.79) empty_db
    = (Return {[ "id" := VStr "000000000000000000000000" ]}, db')
    ∧ collection db' "order"
      = [<["_id" := VObjectId 0%N]> (Order_dump (sample_order 9.99 1 9.99 0.80 10.79))].
Proof.
  destruct (create_order_example (sample_order 9.99 1 9.99 0.80 10.79)
              (sample_item 9.99 1) empty_db
              eq_refl eq_refl eq_refl eq_refl eq_refl eq_refl)
    as (_ & _ & _ & db' & Hrun & Hstored).
  exists db'. split; [exact Hrun | exact Hstored].
Defined.

(** One cent of difference on the subtotal, none on the total. *)
Lemma create_order_boundary_accepted_witness :
  computed_subtotal (sample_order 0.01 1 0 0 0) = Return 0.01%float
  ∧ abs (0.01 - subtotal (sample_order 0.01 1 0 0 0)) = 0.01%float
  ∧ ∃ db',
      create_order (sample_order 0.01 1 0 0 0) empty_db
      = (Return {[ "id" := VStr "000000000000000000000000" ]}, db')
      ∧ collection db' "order"
        = [<["_id" := VObjectId 0%N]> (Order_dump (sample_order 0.01 1 0 0 0))].
Proof.
  split; [reflexivity|]. split; [reflexivity|].
  apply (create_order_boundary_accepted (sample_order 0.01 1 0 0 0)
           empty_db 0.01%float); [reflexivity|].
  left. split; reflexivity.
Defined.

(** One cent of difference on the total, none on the subtotal. *)
Example create_order_boundary_total :
  abs (subtotal (sample_order 0.01 1 0.01 0 0) + tax (sample_order 0.01 1 0.01 0 0)
       - total (sample_order 0.01 1 0.01 0 0)) = 0.01%float
  ∧ (create_order (sample_order 0.01 1 0.01 0 0) empty_db).1
    = Return {[ "id" := VStr "000000000000000000000000" ]}.
Proof. split; reflexivity. Qed.

(** A deviation just above the bound is refused: 0.07 - 0.06 is computed as
    0.010000000000000009. *)
Example create_order_just_above :
  create_order (sample_order 0.07 1 0.06 0 0.06) empty_db
  = (Raise (HTTPException 400 "Subtotal does not match items total"), empty_db).
Proof. reflexivity. Qed.

(** A quantity beyond the range of a float: the answer is a 500. *)
Example create_order_huge_quantity :
  create_order (sample_order 1 (10 ^ 400) 1 0 1) empty_db
  = (Raise (HTTPException 500 "int too large to convert to float"), empty_db).
Proof. vm_compute. reflexivity. Qed.

(** C3 as stated fails. A body that passes the schema, with one line of
    price 1 and quantity 10^400 and the sums 1, 0 and 5: subtotal + tax is
    off the total by 4, yet the answer is a 500, because the multiplication
    of the price by such a quantity raises before either check is made. *)
Lemma create_order_violation_500_counterexample :
  Order_validate any_email (sample_body_sums [sample_item 1 (10 ^ 400)] 1 0 5)
  = Some (sample_order 1 (10 ^ 400) 1 0 5)
  ∧ gt_float (abs (subtotal (sample_order 1 (10 ^ 400) 1 0 5)
                   + tax (sample_order 1 (10 ^ 400) 1 0 5)
                   - total (sample_order 1 (10 ^ 400) 1 0 5))) 0.01 = true
  ∧ post_orders any_email (sample_body_sums [sample_item 1 (10 ^ 400)] 1 0 5) empty_db
    = (Raise (HTTPException 500 "int too large to convert to float"), empty_db)
  ∧ ¬ ∃ detail,
        (create_order (sample_order 1 (10 ^ 400) 1 0 5) empty_db).1
        = Raise (HTTPException 400 detail).
Proof.
  assert (Hval : Order_validate any_email
                   (sample_body_sums [sample_item 1 (10 ^ 400)] 1 0 5)
                 = Some (sample_order 1 (10 ^ 400) 1 0 5))
    by (vm_compute; reflexivity).
  assert (Hrun : create_order (sample_order 1 (10 ^ 400) 1 0 5) empty_db
                 = (Raise (HTTPException 500 "int too large to convert to float"),
                    empty_db))
    by (vm_compute; reflexivity).
  split; [exact Hval|]. split; [reflexivity|]. split.
  - unfold post_orders. rewrite Hval. exact Hrun.
  - rewrite Hrun. intros [detail [=]].
Qed.

(** ** Stored documents keep their identifiers *)

Lemma db_ok_empty : db_ok empty_db.
Proof. intros name. unfold collection; simpl. rewrite lookup_empty. constructor. Qed.

Lemma create_document_ok (name : string) (data : Doc) (db : Database) :
  db_ok db → db_ok (create_document name data db).2.
Proof.
  intros Hok name'. destruct (decide (name = name')) as [<-|Hne].
  - rewrite collection_create_document_eq. apply Forall_app. split; [apply Hok|].
    repeat constructor. exists (next_oid db). apply lookup_insert_eq.
  - rewrite collection_create_document_ne by done. apply Hok.
Qed.

(** ** Inserting a list of documents *)

Lemma create_all_spec (name : string) (docs : list Doc) (db : Database) :
  ∃ db',
    create_all name docs db = (Return (), db')
    ∧ collection db' name = collection db name ++ with_ids (next_oid db) docs
    ∧ (∀ name', name ≠ name' → collection db' name' = collection db name')
    ∧ next_oid db' = (next_oid db + N.of_nat (length docs))%N
    ∧ (db_ok db → db_ok db').
Proof.
  revert db. induction docs as [|p rest IH]; intros db.
  - exists db. simpl. rewrite app_nil_r, N.add_0_r. done.
  - destruct (IH (create_document name p db).2) as (db' & Hrun & Hsame & Hother & Hnext & Hok).
    exists db'. split; [exact Hrun|]. split; [|split; [|split]].
    + rewrite Hsame, collection_create_document_eq, <- app_assoc. f_equal.
      unfold with_ids. cbn [imap app]. rewrite N.add_0_r. f_equal.
      apply imap_ext. intros i x _. cbn. do 2 f_equal. lia.
    + intros name' Hne. rewrite (Hother _ Hne).
      by apply collection_create_document_ne.
    + rewrite Hnext. cbn [length]. cbn. lia.
    + intros Hdb. apply Hok. by apply (create_document_ok name p db).
Qed.

(** ** Filters *)

Lemma doc_matches_empty (d : Doc) : doc_matches ∅ d = true.
Proof. unfold doc_matches. by rewrite map_fold_empty. Qed.

Lemma doc_matches_singleton (k s : string) (d : Doc) :
  doc_matches {[ k := s ]} d = field_is d k s.
Proof. unfold doc_matches. by rewrite map_fold_singleton. Qed.

Lemma field_is_category (c : string) (d : Doc) :
  field_is d "category" c = true ↔ has_category c d.
Proof.
  unfold field_is, has_category.
  destruct (d !! "category") as [[| | | |s| | |]|]; try (split; congruence).
  rewrite String.eqb_eq. split; congruence.
Qed.

Lemma filter_no_filter (docs : list Doc) :
  List.filter (doc_matches ∅) docs = docs.
Proof.
  induction docs as [|d rest IH]; simpl; [done|].
  by rewrite doc_matches_empty, IH.
Qed.

Lemma filter_category (c : string) (docs : list Doc) :
  List.filter (doc_matches {[ "category" := c ]}) docs = filter (has_category c) docs.
Proof.
  induction docs as [|d rest IH]; simpl; [done|].
  rewrite doc_matches_singleton, filter_cons, IH.
  destruct (field_is d "category" c) eqn:Hf.
  - apply field_is_category in Hf. by rewrite decide_True.
  - rewrite decide_False; [done|]. rewrite <- field_is_category. congruence.
Qed.

(** ** Exposing identifiers *)

Lemma expose_id_ok (d : Doc) :
  doc_ok d → ∃ out, expose_id d = Return out ∧ id_exposed d out.
Proof.
  intros [oid Hid]. unfold expose_id. rewrite Hid. eexists. split; [reflexivity|].
  exists oid. split; [done|]. split; [|split].
  - rewrite lookup_insert_ne by done. apply lookup_delete_eq.
  - apply lookup_insert_eq.
  - intros k Hk1 Hk2. rewrite lookup_insert_ne by done. by rewrite lookup_delete_ne.
Qed.

Lemma expose_ids_ok (docs : list Doc) :
  Forall doc_ok docs →
  ∃ outs, expose_ids docs = Return outs ∧ Forall2 id_exposed docs outs.
Proof.
  induction 1 as [|d rest Hd _ (outs & Hrest & Hall)]; simpl.
  - eexists. split; [reflexivity|constructor].
  - destruct (expose_id_ok d Hd) as (out & -> & Hout). rewrite Hrest. simpl.
    eexists. split; [reflexivity|]. by constructor.
Qed.

(** The fields of an exposed document determine it. *)
Lemma id_exposed_unique (stored out1 out2 : Doc) :
  id_exposed stored out1 → id_exposed stored out2 → out1 = out2.
Proof.
  intros (o1 & Hs1 & Hn1 & Hi1 & Hk1) (o2 & Hs2 & Hn2 & Hi2 & Hk2).
  assert (o1 = o2) as -> by congruence.
  apply map_eq. intros k.
  destruct (decide (k = "_id")) as [->|?]; [congruence|].
  destruct (decide (k = "id")) as [->|?]; [congruence|].
  by rewrite Hk1, Hk2.
Qed.

(** A list endpoint over a well-formed store: it returns, leaves the store
    alone, and exposes the identifier of each selected document. *)
Lemma list_products_run (category : option string) (db : Database) :
  db_ok db →
  ∃ outs,
    list_products category db = (Return outs, db)
    ∧ Forall2 id_exposed
        (List.filter (doc_matches (filter_query category)) (collection db "product"))
        outs.
Proof.
  intros Hok.
  destruct (expose_ids_ok
    (List.filter (doc_matches (filter_query category)) (collection db "product")))
    as (outs & Hrun & Hall).
  { apply Forall_forall. intros d [Hd _]%list_elem_of_In%filter_In.
    specialize (Hok "product"). rewrite Forall_forall in Hok.
    apply Hok. by apply list_elem_of_In. }
  exists outs. split; [|done].
  unfold list_products, try_except, mbind, M_bind, get_documents, lift.
  by rewrite Hrun.
Qed.

Lemma list_orders_run (db : Database) :
  db_ok db →
  ∃ outs,
    list_orders db = (Return outs, db)
    ∧ Forall2 id_exposed (collection db "order") outs.
Proof.
  intros Hok.
  destruct (expose_ids_ok (collection db "order") (Hok "order")) as (outs & Hrun & Hall).
  exists outs. split; [|done].
  unfold list_orders, try_except, mbind, M_bind, get_documents, lift.
  by rewrite filter_no_filter, Hrun.
Qed.

Lemma exposed_from (stored_docs all : list Doc) (outs : list Doc) :
  Forall2 id_exposed stored_docs outs →
  (∀ d, d ∈ stored_docs → d ∈ all) →
  Forall (λ out, ∃ stored, stored ∈ all ∧ id_exposed stored out) outs.
Proof.
  induction 1 as [|d out rest outs' Hd _ IH]; intros Hsub; constructor.
  - exists d. split; [apply Hsub; left|done].
  - apply IH. intros d' Hd'. apply Hsub. by right.
Qed.

(** ** [seed_products] *)

Lemma seed_products_run (db : Database) :
  match collection db "product" with
  | _ :: _ =>
      seed_products db
      = (Return (seed_response false (length (collection db "product"))), db)
  | [] =>
      ∃ db',
        seed_products db = (Return (seed_response true 4), db')
        ∧ collection db' "product" = with_ids (next_oid db) demo
        ∧ (∀ name, name ≠ "product" → collection db' name = collection db name)
        ∧ (db_ok db → db_ok db')
  end.
Proof.
  unfold seed_products, try_except, mbind, M_bind, get_documents.
  rewrite filter_no_filter.
  destruct (collection db "product") as [|d rest] eqn:Hprod; [|done].
  destruct (create_all_spec "product" demo db) as (db' & Hrun & Hsame & Hother & _ & Hok).
  exists db'. rewrite Hrun. split; [done|]. split; [by rewrite Hsame, Hprod|].
  split; [|done]. intros name Hne. by apply Hother.
Qed.

Lemma seed_products_ok (db : Database) : db_ok db → db_ok (seed_products db).2.
Proof.
  intros Hok. pose proof (seed_products_run db) as Hrun.
  destruct (collection db "product").
  - destruct Hrun as (db' & -> & _ & _ & Hok'). by apply Hok'.
  - by rewrite Hrun.
Qed.

Lemma create_order_ok (o : Order) (db : Database) :
  db_ok db → db_ok (create_order o db).2.
Proof.
  intros Hok. destruct (computed_subtotal o) as [cs|e] eqn:Hcs.
  - rewrite (create_order_eq _ _ _ Hcs). repeat case_match; try done.
    by apply create_document_ok.
  - by rewrite (create_order_overflow _ _ _ Hcs).
Qed.

Lemma seeded_db_ok : db_ok seeded_db.
Proof. apply seed_products_ok, db_ok_empty. Qed.

(** C5. With at least one product in the store, seeding changes nothing and
    answers [seeded: false]; with none, it answers [seeded: true] with count
    4 and the product collection then holds the four demo documents, each
    under a fresh identifier, while every other collection is as before. *)
Theorem seed_products_spec (db : Database) :
  (collection db "product" ≠ [] →
     seed_products db
     = (Return (seed_response false (length (collection db "product"))), db))
  ∧ (collection db "product" = [] →
     ∃ db',
       seed_products db = (Return (seed_response true 4), db')
       ∧ collection db' "product" = with_ids (next_oid db) demo
       ∧ length (collection db' "product") = 4
       ∧ ∀ name, name ≠ "product" → collection db' name = collection db name).
Proof.
  pose proof (seed_products_run db) as Hrun.
  destruct (collection db "product") as [|d rest]; split; try done.
  intros _. destruct Hrun as (db' & Hseed & Hprod & Hother & _).
  exists db'. split; [done|]. split; [done|]. split; [by rewrite Hprod|done].
Qed.

(** Seeding the empty store, then seeding again. *)
Example seed_products_twice :
  (seed_products empty_db).1 = Return (seed_response true 4)
  ∧ length (collection seeded_db "product") = 4
  ∧ seed_products seeded_db = (Return (seed_response false 4), seeded_db).
Proof.
  split; [reflexivity|]. split; [reflexivity|]. vm_compute. reflexivity.
Qed.

(** ** The list endpoints *)

(** C6. Over a store whose documents carry their identifiers, both list
    endpoints return, and every document they return is a stored document
    of the collection with ["_id"] removed, ["id"] holding the string of
    that identifier, and every other field unchanged. *)
Theorem list_endpoints_expose_id (category : option string) (db : Database) :
  db_ok db →
  (∃ outs,
     list_products category db = (Return outs, db)
     ∧ Forall (λ out, ∃ stored,
                 stored ∈ collection db "product" ∧ id_exposed stored out) outs)
  ∧ (∃ outs,
       list_orders db = (Return outs, db)
       ∧ Forall (λ out, ∃ stored,
                   stored ∈ collection db "order" ∧ id_exposed stored out) outs).
Proof.
  intros Hok. split.
  - destruct (list_products_run category db Hok) as (outs & Hrun & Hall).
    exists outs. split; [done|]. eapply exposed_from; [exact Hall|].
    intros d [Hd _]%list_elem_of_In%filter_In. by apply list_elem_of_In.
  - destruct (list_orders_run db Hok) as (outs & Hrun & Hall).
    exists outs. split; [done|]. by eapply exposed_from.
Qed.

(** C7. For a non-empty category [c], [list_products] returns the stored
    products whose category field is the string [c], in stored order, each
    with its identifier exposed; without a category it returns all of
    them. *)
Theorem list_products_by_category (c : string) (db : Database) :
  c ≠ "" →
  db_ok db →
  (∃ outs,
     list_products (Some c) db = (Return outs, db)
     ∧ Forall2 id_exposed (filter (has_category c) (collection db "product")) outs)
  ∧ (∃ outs,
       list_products None db = (Return outs, db)
       ∧ Forall2 id_exposed (collection db "product") outs).
Proof.
  intros Hc Hok. split.
  - destruct (list_products_run (Some c) db Hok) as (outs & Hrun & Hall).
    exists outs. split; [done|]. revert Hall. unfold filter_query.
    apply String.eqb_neq in Hc. rewrite Hc. by rewrite filter_category.
  - destruct (list_products_run None db Hok) as (outs & Hrun & Hall).
    exists outs. split; [done|]. revert Hall. unfold filter_query.
    by rewrite filter_no_filter.
Qed.

(** C9. An empty category string selects nothing: the endpoint behaves as
    it does without a category and returns every stored product. *)
Theorem list_products_empty_category (db : Database) :
  db_ok db →
  list_products (Some "") db = list_products None db
  ∧ ∃ outs,
      list_products (Some "") db = (Return outs, db)
      ∧ Forall2 id_exposed (collection db "product") outs.
Proof.
  intros Hok. split; [reflexivity|].
  destruct (list_products_run (Some "") db Hok) as (outs & Hrun & Hall).
  exists outs. split; [done|]. revert Hall. unfold filter_query. simpl.
  by rewrite filter_no_filter.
Qed.

(** *** The list theorems on the seeded store *)

Lemma list_endpoints_expose_id_witness :
  db_ok seeded_db
  ∧ ∃ outs,
      list_products (Some "Pizza") seeded_db = (Return outs, seeded_db)
      ∧ Forall (λ out, ∃ stored,
                  stored ∈ collection seeded_db "product" ∧ id_exposed stored out) outs.
Proof.
  split; [exact seeded_db_ok|].
  exact (proj1 (list_endpoints_expose_id (Some "Pizza") seeded_db seeded_db_ok)).
Defined.

Lemma list_products_by_category_witness :
  "Pizza" ≠ ""
  ∧ db_ok seeded_db
  ∧ ∃ outs,
      list_products (Some "Pizza") seeded_db = (Return outs, seeded_db)
      ∧ Forall2 id_exposed
          (filter (has_category "Pizza") (collection seeded_db "product")) outs.
Proof.
  split; [discriminate|]. split; [exact seeded_db_ok|].
  refine (proj1 (list_products_by_category "Pizza" seeded_db _ seeded_db_ok)).
  discriminate.
Defined.

Lemma list_products_empty_category_witness :
  db_ok seeded_db
  ∧ list_products (Some "") seeded_db = list_products None seeded_db.
Proof.
  split; [exact seeded_db_ok|].
  exact (proj1 (list_products_empty_category seeded_db seeded_db_ok)).
Defined.

Example list_products_pizza :
  titles (list_products (Some "Pizza") seeded_db).1
  = Return [Some (VStr "Margherita Pizza")].
Proof. vm_compute. reflexivity. Qed.

Example list_products_unknown_category :
  (list_products (Some "pizza") seeded_db).1 = Return [].
Proof. vm_compute. reflexivity. Qed.

Example list_products_all :
  titles (list_products (Some "") seeded_db).1
  = Return [Some (VStr "Margherita Pizza"); Some (VStr "Cheeseburger");
            Some (VStr "Caesar Salad"); Some (VStr "Iced Latte")].
Proof. vm_compute. reflexivity. Qed.

(** ** The [Order] schema *)

(** The status of a validated order is the one of the body, or ["pending"]
    when the body has none; no other condition bears on it. *)
Lemma Order_validate_status (EmailStr : string → option string)
    (body : OrderBody) (o : Order) :
  Order_validate EmailStr body = Some o →
  status o = default "pending" (body_status body).
Proof.
  unfold Order_validate. destruct (EmailStr _); [|done].
  case_match; [|done]. by intros [= <-].
Qed.

Lemma Order_validate_default_status (EmailStr : string → option string)
    (body : OrderBody) (o : Order) :
  body_status body = None →
  Order_validate EmailStr body = Some o →
  status o = "pending".
Proof. intros Hnone Hval. by rewrite (Order_validate_status _ _ _ Hval), Hnone. Qed.

(** What a validated order satisfies: the range constraints of the fields. *)
Lemma Order_validate_constraints (EmailStr : string → option string)
    (body : OrderBody) (o : Order) :
  Order_validate EmailStr body = Some o →
  items o ≠ []
  ∧ Forall (λ item, ge_float 0 (price item) = true ∧ (1 ≤ quantity item)%Z) (items o)
  ∧ ge_float 0 (subtotal o) = true
  ∧ ge_float 0 (tax o) = true
  ∧ ge_float 0 (total o) = true.
Proof.
  unfold Order_validate. destruct (EmailStr _); [|done].
  case_match eqn:Hchecks; [|done]. intros [= <-]. simpl.
  repeat (apply andb_prop in Hchecks as [Hchecks ?]).
  repeat split; try done.
  - destruct (body_items body); [done|discriminate].
  - apply Forall_forall. intros item Hin%list_elem_of_In.
    rewrite forallb_forall in Hchecks. specialize (Hchecks _ Hin).
    apply andb_prop in Hchecks as [? ?%Z.leb_le]. done.
Qed.

(** C8. The schema does not restrict [status]: a body that is consistent in
    every other respect and asks for the status ["shipped"] is validated,
    accepted by [create_order] and stored with that status, which is none of
    the four documented ones. *)
Theorem post_orders_status_unchecked (EmailStr : string → option string)
    (db : Database) :
  EmailStr "ana@example.com" = Some "ana@example.com" →
  ∃ o db',
    Order_validate EmailStr (sample_body (Some "shipped")) = Some o
    ∧ status o = "shipped"
    ∧ (status o ∉ ["pending"; "confirmed"; "delivered"; "cancelled"])
    ∧ post_orders EmailStr (sample_body (Some "shipped")) db
      = (Return {[ "id" := VStr (ObjectId_str (next_oid db)) ]}, db')
    ∧ collection db' "order"
      = collection db "order" ++ [<["_id" := VObjectId (next_oid db)]> (Order_dump o)].
Proof.
  intros Hemail.
  assert (Hval : Order_validate EmailStr (sample_body (Some "shipped"))
                 = Some (with_status "shipped" (sample_order 9.99 1 9.99 0.80 10.79))).
  { unfold Order_validate. simpl. rewrite Hemail. reflexivity. }
  eexists _, _. split; [exact Hval|]. split; [reflexivity|]. split.
  { simpl. rewrite !elem_of_cons, elem_of_nil. intros [?|[?|[?|[?|[]]]]]; discriminate. }
  unfold post_orders. rewrite Hval.
  rewrite (create_order_eq _ _ 9.99%float) by reflexivity.
  split; [reflexivity|]. apply collection_create_document_eq.
Qed.

Lemma post_orders_status_unchecked_witness :
  any_email "ana@example.com" = Some "ana@example.com"
  ∧ ∃ o db',
      post_orders any_email (sample_body (Some "shipped")) empty_db
      = (Return {[ "id" := VStr "000000000000000000000000" ]}, db')
      ∧ collection db' "order" = [<["_id" := VObjectId 0%N]> (Order_dump o)]
      ∧ status o = "shipped".
Proof.
  split; [reflexivity|].
  destruct (post_orders_status_unchecked any_email empty_db eq_refl)
    as (o & db' & _ & Hstatus & _ & Hrun & Hstored).
  exists o, db'. split; [exact Hrun|]. split; [exact Hstored|exact Hstatus].
Defined.

(** Left out of the body, the status is ["pending"]. *)
Example post_orders_default_status :
  status <$> Order_validate any_email (sample_body None) = Some "pending".
Proof. reflexivity. Qed.

(** Validation included, posting an order keeps the store well-formed. *)
Lemma post_orders_ok (EmailStr : string → option string) (body : OrderBody)
    (db : Database) :
  db_ok db → db_ok (post_orders EmailStr body db).2.
Proof.
  intros Hok. unfold post_orders.
  destruct (Order_validate EmailStr body) as [o|]; [|done].
  by apply create_order_ok.
Qed.

(** * Further properties *)

(** ** Binary64 facts the checks rest on *)

(** A float minus itself is a zero, or NaN for an infinity or a NaN; its
    absolute value is never above the tolerance. *)
Lemma gt_abs_sub_diag (x : float) : gt_float (abs (x - x)) 0.01 = false.
Proof.
  unfold gt_float. rewrite ltb_spec, abs_spec, sub_spec.
  unfold SF64sub, SFsub.
  destruct (Prim2SF x) as [[]|[]| |s m e]; try reflexivity.
  rewrite Z.sub_diag. reflexivity.
Qed.

(** [ge=0] excludes NaN. *)
Lemma ge_float_0_not_nan (v : float) : ge_float 0 v = true → is_nan v = false.
Proof.
  unfold ge_float, is_nan. rewrite leb_spec, FloatAxioms.eqb_spec.
  replace (Prim2SF 0) with (S754_zero false) by reflexivity.
  unfold SFleb, SFeqb.
  destruct (Prim2SF v) as [[]|[]| |[] m e]; simpl; try done.
  by rewrite Z.compare_refl, Pos.compare_cont_refl.
Qed.

Lemma nan_not_ge_float (bound v : float) : is_nan v = true → ge_float bound v = false.
Proof.
  intros Hnan. unfold ge_float. rewrite leb_spec.
  assert (Prim2SF v = S754_nan) as -> by (unfold Prim2SF; by rewrite Hnan).
  unfold SFleb, SFcompare. by destruct (Prim2SF bound).
Qed.

Lemma nan_not_le_float (bound v : float) : is_nan v = true → (v <=? bound)%float = false.
Proof.
  intros Hnan. rewrite leb_spec.
  assert (Prim2SF v = S754_nan) as -> by (unfold Prim2SF; by rewrite Hnan).
  reflexivity.
Qed.

(** Adding a non-negative float to +infinity gives +infinity. *)
Lemma infinity_add (t : float) :
  ge_float 0 t = true → (infinity + t)%float = infinity.
Proof.
  unfold ge_float. rewrite leb_spec. intros Hge.
  rewrite <- (SF2Prim_Prim2SF (infinity + t)), add_spec.
  replace (Prim2SF infinity) with (S754_infinity false) by reflexivity.
  replace (Prim2SF 0) with (S754_zero false) in Hge by reflexivity.
  destruct (Prim2SF t) as [[]|[]| |[] m e]; try done.
Qed.

(** ** More on [create_order] *)

(** X1. A client that computes the sums as the server does is never turned
    away: when the declared subtotal is the computed one and the declared
    total is the float sum of subtotal and tax, the order is stored and its
    identifier returned, whatever the values (finite or not). *)
Theorem create_order_consistent_accepted (o : Order) (db : Database) (cs : float) :
  computed_subtotal o = Return cs →
  subtotal o = cs →
  total o = (subtotal o + tax o)%float →
  create_order o db
  = (Return {[ "id" := VStr (ObjectId_str (next_oid db)) ]},
     (create_document "order" (Order_dump o) db).2)
  ∧ collection (create_order o db).2 "order"
    = collection db "order" ++ [<["_id" := VObjectId (next_oid db)]> (Order_dump o)].
Proof.
  intros Hcs Hsub Htot.
  assert (Hrun : create_order o db
    = (Return {[ "id" := VStr (ObjectId_str (next_oid db)) ]},
       (create_document "order" (Order_dump o) db).2)).
  { rewrite (create_order_eq _ _ _ Hcs), Htot, Hsub.
    by rewrite !gt_abs_sub_diag. }
  split; [exact Hrun|]. rewrite Hrun. apply collection_create_document_eq.
Qed.

Lemma create_order_consistent_accepted_witness :
  computed_subtotal (sample_order 9.99 3 (0 + 9.99 * 3) 2.4 (0 + 9.99 * 3 + 2.4))
  = Return (0 + 9.99 * 3)%float
  ∧ (create_order (sample_order 9.99 3 (0 + 9.99 * 3) 2.4 (0 + 9.99 * 3 + 2.4))
       empty_db).1
    = Return {[ "id" := VStr "000000000000000000000000" ]}.
Proof.
  split; [reflexivity|].
  destruct (create_order_consistent_accepted
              (sample_order 9.99 3 (0 + 9.99 * 3) 2.4 (0 + 9.99 * 3 + 2.4))
              empty_db (0 + 9.99 * 3)%float eq_refl eq_refl eq_refl) as [-> _].
  reflexivity.
Defined.

(** X2. The tolerance does not bind on infinities: when the line totals sum
    to +infinity and the order declares +infinity as subtotal and as total,
    both differences are NaN, no comparison with 0.01 holds, and the order
    is stored, whatever non-negative tax it declares. *)
Theorem create_order_infinite_sums_accepted (o : Order) (db : Database) :
  computed_subtotal o = Return infinity →
  subtotal o = infinity →
  ge_float 0 (tax o) = true →
  total o = infinity →
  create_order o db
  = (Return {[ "id" := VStr (ObjectId_str (next_oid db)) ]},
     (create_document "order" (Order_dump o) db).2).
Proof.
  intros Hcs Hsub Htax Htot.
  rewrite (create_order_eq _ _ _ Hcs), Htot, Hsub, (infinity_add _ Htax).
  by rewrite !gt_abs_sub_diag.
Qed.

Lemma create_order_infinite_sums_accepted_witness :
  computed_subtotal (sample_order 1e308 10 infinity 5 infinity) = Return infinity
  ∧ ge_float 0 (tax (sample_order 1e308 10 infinity 5 infinity)) = true
  ∧ (create_order (sample_order 1e308 10 infinity 5 infinity) empty_db).1
    = Return {[ "id" := VStr "000000000000000000000000" ]}.
Proof.
  split; [reflexivity|]. split; [reflexivity|].
  rewrite (create_order_infinite_sums_accepted
             (sample_order 1e308 10 infinity 5 infinity) empty_db
             eq_refl eq_refl eq_refl eq_refl).
  reflexivity.
Defined.

(** The subtotal computation raises exactly when some quantity does not
    convert to a float. *)
Lemma sum_line_totals_overflow (its : list OrderItem) (acc : float) :
  (∃ e, sum_line_totals acc its = Raise e)
  ↔ Exists (λ item, ∃ e, int_to_float (quantity item) = Raise e) its.
Proof.
  revert acc. induction its as [|item rest IH]; intros acc; simpl.
  - rewrite Exists_nil. split; [intros [e [=]]|done].
  - rewrite Exists_cons. unfold line_total.
    destruct (int_to_float (quantity item)) as [q|e]; simpl.
    + rewrite IH. split; [by right|]. intros [[e [=]]|?]; done.
    + split; [|by eexists]. intros _. left. by eexists.
Qed.

Lemma create_order_over_create_document (o : Order) :
  create_order_over create_document o = create_order o.
Proof. reflexivity. Qed.

(** [create_order_over], by cases on the subtotal and the two checks. *)
Lemma create_order_over_eq (store_create : string → Doc → M string)
    (o : Order) (db : Database) :
  create_order_over store_create o db =
    match computed_subtotal o with
    | Raise e => (Raise (create_order_answer e), db)
    | Return cs =>
        if gt_float (abs (cs - subtotal o)) 0.01 then (Raise subtotal_mismatch, db)
        else if gt_float (abs (subtotal o + tax o - total o)) 0.01
             then (Raise total_mismatch, db)
             else match store_create "order" (Order_dump o) db with
                  | (Return new_id, db') => (Return {[ "id" := VStr new_id ]}, db')
                  | (Raise e, db') => (Raise (create_order_answer e), db')
                  end
    end.
Proof.
  unfold create_order_over, try_except, create_order_body_over, mbind, M_bind, lift.
  destruct (computed_subtotal o) as [cs|e]; [|by destruct e].
  destruct (gt_float (abs (cs - subtotal o)) 0.01); [done|].
  destruct (gt_float (abs (subtotal o + tax o - total o)) 0.01); [done|].
  destruct (store_create "order" (Order_dump o) db) as [[new_id|e] db']; [done|].
  by destruct e.
Qed.

(** X3. The store is reached last, and once. Whatever the store accessor
    does, an order with a quantity that does not convert, or that fails a
    check, is answered by one of three [HTTPException]s without the
    accessor being called: the answer is the same for every accessor and
    the store is what it was. Any other order is handed to the accessor
    once; the handler returns the identifier it returned, re-raises an
    [HTTPException] it raised and turns any other exception into a 500
    whose detail is [str(e)], and the store is what the accessor left. *)
Theorem create_order_store_reached_last (store_create : string → Doc → M string)
    (o : Order) (db : Database) :
  (∃ status_code detail,
     (status_code, detail)
       ∈ [(400, "Subtotal does not match items total");
          (400, "Total does not match subtotal + tax");
          (500, "int too large to convert to float")]%Z
     ∧ ∀ other_create,
         create_order_over other_create o db
         = (Raise (HTTPException status_code detail), db))
  ∨ (∃ cs,
       computed_subtotal o = Return cs
       ∧ checks_pass o cs
       ∧ create_order_over store_create o db
         = match store_create "order" (Order_dump o) db with
           | (Return new_id, db') => (Return {[ "id" := VStr new_id ]}, db')
           | (Raise e, db') => (Raise (create_order_answer e), db')
           end).
Proof.
  destruct (computed_subtotal o) as [cs|e] eqn:Hcs.
  - destruct (gt_float (abs (cs - subtotal o)) 0.01) eqn:Hsub.
    { left. eexists _, _. split; [|intros other_create;
        by rewrite create_order_over_eq, Hcs, Hsub]. set_solver. }
    destruct (gt_float (abs (subtotal o + tax o - total o)) 0.01) eqn:Htot.
    { left. eexists _, _. split; [|intros other_create;
        by rewrite create_order_over_eq, Hcs, Hsub, Htot]. set_solver. }
    right. exists cs. split; [done|]. split; [done|].
    by rewrite create_order_over_eq, Hcs, Hsub, Htot.
  - left. pose proof (sum_line_totals_raises _ _ _ Hcs) as ->.
    eexists _, _. split; [|intros other_create;
      by rewrite create_order_over_eq, Hcs]. set_solver.
Qed.

(** X4. [create_order] answers 500 in exactly two situations, whatever the
    store accessor: the quantity of some line is too large to convert to a
    float, which is found before either check is made; or both checks pass
    and the accessor raises, an [HTTPException] of status 500 or anything
    that is not an [HTTPException]. *)
Theorem create_order_500_iff (store_create : string → Doc → M string)
    (o : Order) (db : Database) :
  (∃ detail,
     (create_order_over store_create o db).1 = Raise (HTTPException 500 detail))
  ↔ Exists (λ item, ∃ e, int_to_float (quantity item) = Raise e) (items o)
    ∨ (∃ cs e,
         computed_subtotal o = Return cs
         ∧ checks_pass o cs
         ∧ (store_create "order" (Order_dump o) db).1 = Raise e
         ∧ ∀ status_code detail, e = HTTPException status_code detail →
             status_code = 500%Z).
Proof.
  rewrite <- (sum_line_totals_overflow (items o) 0%float).
  fold (computed_subtotal o). rewrite create_order_over_eq. unfold checks_pass.
  destruct (computed_subtotal o) as [cs|e0] eqn:Hcs.
  - destruct (gt_float (abs (cs - subtotal o)) 0.01) eqn:Hsub.
    { split; [by intros [? [=]]|].
      intros [[? [=]]|(cs' & e & [= <-] & [Hs _] & _)]. congruence. }
    destruct (gt_float (abs (subtotal o + tax o - total o)) 0.01) eqn:Htot.
    { split; [by intros [? [=]]|].
      intros [[? [=]]|(cs' & e & [= <-] & [_ Ht] & _)]. congruence. }
    destruct (store_create "order" (Order_dump o) db) as [[new_id|e] db'] eqn:Hstore;
      simpl.
    { split; [by intros [? [=]]|].
      intros [[? [=]]|(cs' & e & _ & _ & [=] & _)]. }
    split.
    + intros [detail Hraise]. right. exists cs, e. repeat split; try done.
      intros status_code detail' ->. simpl in Hraise. congruence.
    + intros [[? [=]]|(cs' & e' & _ & _ & [= <-] & H500)].
      destruct e as [status_code detail| | |]; simpl; try by eexists.
      rewrite (H500 _ _ eq_refl). by eexists.
  - split; [intros _; left; by eexists|]. intros _.
    pose proof (sum_line_totals_raises _ _ _ Hcs) as ->. by eexists.
Qed.

(** A quantity that converts to a float but does not fit the driver's
    integers: both checks pass, the accessor raises, the answer is a 500
    with its message. *)
Example create_order_store_refuses :
  create_order_over refusing_create
    (sample_order 1 (2 ^ 70) (0 + 1 * 1180591620717411303424) 0
       (0 + 1 * 1180591620717411303424)) empty_db
  = (Raise (HTTPException 500 "MongoDB can only handle up to 8-byte ints"), empty_db).
Proof. vm_compute. reflexivity. Qed.

Lemma sum_line_totals_amounts (its1 its2 : list OrderItem) (acc : float) :
  amounts its1 = amounts its2 →
  sum_line_totals acc its1 = sum_line_totals acc its2.
Proof.
  revert its2 acc. induction its1 as [|i1 r1 IH]; intros [|i2 r2] acc; try done.
  intros [= Hp Hq Hrest]. simpl. unfold line_total. rewrite Hp, Hq.
  destruct (int_to_float (quantity i2)); simpl; [|done]. by apply IH.
Qed.

(** X5. The verdict of [create_order] looks at nothing but the prices and
    quantities of the lines and the three declared sums: two orders that
    agree on those get the same verdict, whoever the customer is, whatever
    products the lines name, whatever the status, and whatever the store
    holds (the catalogue is never consulted). *)
Theorem create_order_verdict_amounts_only (o1 o2 : Order) (db1 db2 : Database) :
  amounts (items o1) = amounts (items o2) →
  subtotal o1 = subtotal o2 →
  tax o1 = tax o2 →
  total o1 = total o2 →
  ∀ e, (create_order o1 db1).1 = Raise e ↔ (create_order o2 db2).1 = Raise e.
Proof.
  intros Hitems Hsub Htax Htot e.
  assert (Hcs : computed_subtotal o1 = computed_subtotal o2)
    by (by apply sum_line_totals_amounts).
  destruct (computed_subtotal o2) as [cs|e0] eqn:Hcs2.
  - rewrite (create_order_eq _ _ _ Hcs), (create_order_eq _ _ _ Hcs2).
    rewrite Hsub, Htax, Htot. by repeat case_match.
  - by rewrite (create_order_overflow _ _ _ Hcs), (create_order_overflow _ _ _ Hcs2).
Qed.

Lemma create_order_verdict_amounts_only_witness :
  amounts (items (sample_order 9.99 2 9.99 0 9.99))
  = amounts (items (with_status "cancelled" (sample_order 9.99 2 9.99 0 9.99)))
  ∧ ((create_order (sample_order 9.99 2 9.99 0 9.99) empty_db).1
       = Raise subtotal_mismatch
     ↔ (create_order (with_status "cancelled" (sample_order 9.99 2 9.99 0 9.99))
          seeded_db).1
       = Raise subtotal_mismatch).
Proof.
  split; [reflexivity|].
  exact (create_order_verdict_amounts_only
           (sample_order 9.99 2 9.99 0 9.99)
           (with_status "cancelled" (sample_order 9.99 2 9.99 0 9.99))
           empty_db seeded_db eq_refl eq_refl eq_refl eq_refl subtotal_mismatch).
Defined.

(** ** More on the [Order] schema *)

(** X6. What validation guarantees of an order: at least one line; on each
    line a price that is a number (not NaN) with [0 <= price] and a quantity
    of at least 1; a subtotal, a tax and a total that are numbers with
    [0 <= _]. Nothing bounds them from above: +infinity passes. *)
Theorem Order_validate_sound (EmailStr : string → option string)
    (body : OrderBody) (o : Order) :
  Order_validate EmailStr body = Some o →
  items o ≠ []
  ∧ Forall (λ item, is_nan (price item) = false
                    ∧ (0 <=? price item)%float = true
                    ∧ (1 ≤ quantity item)%Z) (items o)
  ∧ (is_nan (subtotal o) = false ∧ (0 <=? subtotal o)%float = true)
  ∧ (is_nan (tax o) = false ∧ (0 <=? tax o)%float = true)
  ∧ (is_nan (total o) = false ∧ (0 <=? total o)%float = true).
Proof.
  intros (Hitems & Hlines & Hsub & Htax & Htot)%Order_validate_constraints.
  split; [done|]. split.
  - eapply Forall_impl; [exact Hlines|]. intros item [Hp Hq].
    split; [by apply ge_float_0_not_nan|done].
  - repeat split; try done; by apply ge_float_0_not_nan.
Qed.

Lemma Order_validate_sound_witness :
  Order_validate any_email (sample_body None)
  = Some (sample_order 9.99 1 9.99 0.80 10.79)
  ∧ items (sample_order 9.99 1 9.99 0.80 10.79) ≠ []
  ∧ is_nan (total (sample_order 9.99 1 9.99 0.80 10.79)) = false.
Proof.
  split; [reflexivity|].
  destruct (Order_validate_sound any_email (sample_body None)
              (sample_order 9.99 1 9.99 0.80 10.79) eq_refl)
    as (Hitems & _ & _ & _ & Htot & _).
  split; [exact Hitems|exact Htot].
Defined.

(** X7. What validation refuses, whatever the rest of the body: no line at
    all; a line whose price is NaN or whose quantity is below 1; a subtotal,
    tax or total that is NaN. [post_orders] then answers without running
    the handler, and the store is untouched. *)
Theorem Order_validate_rejects (EmailStr : string → option string)
    (body : OrderBody) (db : Database) :
  body_items body = []
  ∨ Exists (λ item, is_nan (price item) = true ∨ (quantity item < 1)%Z)
      (body_items body)
  ∨ is_nan (body_subtotal body) = true
  ∨ is_nan (body_tax body) = true
  ∨ is_nan (body_total body) = true →
  Order_validate EmailStr body = None
  ∧ ∃ e, post_orders EmailStr body db = (Raise e, db).
Proof.
  intros Hbad.
  assert (Hnone : Order_validate EmailStr body = None).
  { unfold Order_validate. destruct (EmailStr _); [|done].
    case_match eqn:Hchecks; [|done]. exfalso.
    repeat (apply andb_prop in Hchecks as [Hchecks ?]).
    destruct Hbad as [Hnil|[Hline|[Hn|[Hn|Hn]]]].
    - rewrite Hnil in *. discriminate.
    - apply Exists_exists in Hline as (item & Hin%list_elem_of_In & Hitem).
      rewrite forallb_forall in Hchecks. specialize (Hchecks _ Hin).
      apply andb_prop in Hchecks as [Hp Hq%Z.leb_le].
      destruct Hitem as [Hn|Hlt]; [|lia].
      rewrite (nan_not_ge_float _ _ Hn) in Hp. discriminate.
    - rewrite (nan_not_ge_float 0 _ Hn) in *. discriminate.
    - rewrite (nan_not_ge_float 0 _ Hn) in *. discriminate.
    - rewrite (nan_not_ge_float 0 _ Hn) in *. discriminate. }
  split; [done|]. unfold post_orders. rewrite Hnone. by eexists.
Qed.

Lemma Order_validate_rejects_witness :
  Exists (λ item, is_nan (price item) = true ∨ (quantity item < 1)%Z)
    (body_items (sample_body_of [sample_item 9.99 0]))
  ∧ Order_validate any_email (sample_body_of [sample_item 9.99 0]) = None
  ∧ ∃ e, post_orders any_email (sample_body_of [sample_item 9.99 0]) empty_db
         = (Raise e, empty_db).
Proof.
  assert (Hline : Exists (λ item, is_nan (price item) = true ∨ (quantity item < 1)%Z)
                    (body_items (sample_body_of [sample_item 9.99 0]))).
  { apply Exists_cons_hd. right. reflexivity. }
  split; [exact Hline|].
  exact (Order_validate_rejects any_email (sample_body_of [sample_item 9.99 0])
           empty_db (or_intror (or_introl Hline))).
Defined.

(** A quantity of zero with a consistent subtotal of zero would pass both
    checks of the handler; it is the schema that stops it. *)
Example zero_quantity_stopped_by_schema :
  (create_order (sample_order 9.99 0 0 0 0) empty_db).1
  = Return {[ "id" := VStr "000000000000000000000000" ]}
  ∧ Order_validate any_email (sample_body_of [sample_item 9.99 0]) = None.
Proof. split; reflexivity. Qed.

(** ** More on the list endpoints *)

Lemma list_products_eq (category : option string) (db : Database) :
  list_products category db =
    match expose_ids (selected_products category db) with
    | Return outs => (Return outs, db)
    | Raise e => (Raise (HTTPException 500 (Exception_str e)), db)
    end.
Proof.
  unfold list_products, try_except, mbind, M_bind, get_documents, lift.
  fold (selected_products category db).
  by destruct (expose_ids (selected_products category db)).
Qed.

Lemma list_orders_eq (db : Database) :
  list_orders db =
    match expose_ids (collection db "order") with
    | Return outs => (Return outs, db)
    | Raise e => (Raise (HTTPException 500 (Exception_str e)), db)
    end.
Proof.
  unfold list_orders, try_except, mbind, M_bind, get_documents, lift.
  rewrite filter_no_filter. by destruct (expose_ids (collection db "order")).
Qed.

(** X8. The list endpoints only read: whatever the store holds and whether
    they return or fail, the store afterwards is the store before, and a
    failure is an [HTTPException] with status 500. *)
Theorem list_endpoints_read_only (category : option string) (db : Database) :
  ((list_products category db).2 = db
   ∧ ((∃ outs, (list_products category db).1 = Return outs)
      ∨ ∃ detail, (list_products category db).1 = Raise (HTTPException 500 detail)))
  ∧ ((list_orders db).2 = db
     ∧ ((∃ outs, (list_orders db).1 = Return outs)
        ∨ ∃ detail, (list_orders db).1 = Raise (HTTPException 500 detail))).
Proof.
  rewrite list_products_eq, list_orders_eq. split.
  - destruct (expose_ids (selected_products category db)); simpl;
      (split; [done|]); [left|right]; by eexists.
  - destruct (expose_ids (collection db "order")); simpl;
      (split; [done|]); [left|right]; by eexists.
Qed.

Lemma expose_ids_missing_id (docs : list Doc) :
  Exists (λ d, d !! "_id" = None) docs →
  Forall (λ d, d !! "_id" = None ∨ doc_ok d) docs →
  expose_ids docs = Raise (KeyError "_id").
Proof.
  induction docs as [|d rest IH]; intros Hex Hall; [by apply Exists_nil in Hex|].
  apply Forall_cons in Hall as [Hd Hrest]. simpl.
  destruct Hd as [Hnone|[oid Hoid]].
  - unfold expose_id. by rewrite Hnone.
  - apply Exists_cons in Hex as [Hnone|Hex]; [congruence|].
    unfold expose_id. rewrite Hoid. simpl. by rewrite IH.
Qed.

(** X9. One document without ["_id"] among those selected fails the whole
    listing: [pop] raises [KeyError], the handler answers 500 with the
    detail ['_id'] (quotes included), and no partial list is returned. *)
Theorem list_products_missing_id (category : option string) (db : Database) :
  Exists (λ d, d !! "_id" = None) (selected_products category db) →
  Forall (λ d, d !! "_id" = None ∨ doc_ok d) (selected_products category db) →
  list_products category db = (Raise (HTTPException 500 "'_id'"), db).
Proof.
  intros Hex Hall. by rewrite list_products_eq, (expose_ids_missing_id _ Hex Hall).
Qed.

Lemma list_products_missing_id_witness :
  Exists (λ d, d !! "_id" = None) (selected_products (Some "Sides") broken_db)
  ∧ list_products (Some "Sides") broken_db
    = (Raise (HTTPException 500 "'_id'"), broken_db).
Proof.
  assert (Hsel : selected_products (Some "Sides") broken_db
                 = [Product.dump (sample_product "Sides")]) by reflexivity.
  assert (Hex : Exists (λ d, d !! "_id" = None)
                  (selected_products (Some "Sides") broken_db)).
  { rewrite Hsel. apply Exists_cons_hd. reflexivity. }
  split; [exact Hex|].
  apply (list_products_missing_id (Some "Sides") broken_db Hex).
  rewrite Hsel. constructor; [left; reflexivity|constructor].
Defined.

(** ** More on [seed_products] *)

(** X10. Seeding is idempotent: once [seed_products] has run, on any store,
    the product collection is not empty, and a second run answers
    [seeded: false] with the number of products and changes nothing. *)
Theorem seed_products_idempotent (db : Database) :
  collection (seed_products db).2 "product" ≠ []
  ∧ seed_products (seed_products db).2
    = (Return (seed_response false
                 (length (collection (seed_products db).2 "product"))),
       (seed_products db).2).
Proof.
  assert (Hne : collection (seed_products db).2 "product" ≠ []).
  { pose proof (seed_products_run db) as Hrun.
    destruct (collection db "product") as [|d rest] eqn:Hprod.
    - destruct Hrun as (db' & Hseed & Hnew & _). rewrite Hseed. simpl.
      rewrite Hnew. intros Heq%(f_equal length). unfold with_ids in Heq.
      by rewrite length_imap in Heq.
    - rewrite Hrun. simpl. by rewrite Hprod. }
  split; [done|].
  pose proof (seed_products_run (seed_products db).2) as Hrun.
  by destruct (collection (seed_products db).2 "product").
Qed.

(** ** Creating, then listing *)

Lemma expose_ids_app (docs1 docs2 : list Doc) :
  expose_ids (docs1 ++ docs2) =
    outs1 ← expose_ids docs1; outs2 ← expose_ids docs2; Return (outs1 ++ outs2).
Proof.
  induction docs1 as [|d rest IH]; simpl.
  - by destruct (expose_ids docs2).
  - destruct (expose_id d); simpl; [|done]. rewrite IH.
    destruct (expose_ids rest); simpl; [|done].
    by destruct (expose_ids docs2).
Qed.

(** A document inserted under a fresh identifier is shown with that
    identifier under ["id"] and is otherwise the document handed in. *)
Lemma expose_id_inserted (data : Doc) (oid : ObjectId) :
  data !! "_id" = None →
  expose_id (<["_id" := VObjectId oid]> data)
  = Return (<["id" := VStr (ObjectId_str oid)]> data).
Proof.
  intros Hfresh. unfold expose_id. rewrite lookup_insert_eq.
  by rewrite delete_insert_id.
Qed.

Lemma selected_products_create (category : option string) (data : Doc)
    (db : Database) :
  selected_products category (create_document "product" data db).2
  = selected_products category db
    ++ (if doc_matches (filter_query category) (<["_id" := VObjectId (next_oid db)]> data)
        then [<["_id" := VObjectId (next_oid db)]> data] else []).
Proof.
  unfold selected_products.
  by rewrite collection_create_document_eq, List.filter_app.
Qed.

Lemma Product_dump_no_id (p : Product.t) : Product.dump p !! "_id" = None.
Proof. reflexivity. Qed.

Lemma Order_dump_no_id (o : Order) : Order_dump o !! "_id" = None.
Proof. reflexivity. Qed.

Lemma Product_stored_matches (p : Product.t) (oid : ObjectId) (c : string) :
  doc_matches {[ "category" := c ]} (<["_id" := VObjectId oid]> (Product.dump p))
  = String.eqb (Product.category p) c.
Proof. rewrite doc_matches_singleton. reflexivity. Qed.

Lemma create_product_eq (p : Product.t) (db : Database) :
  create_product p db
  = (Return {[ "id" := VStr (ObjectId_str (next_oid db)) ]},
     (create_document "product" (Product.dump p) db).2).
Proof. reflexivity. Qed.



(** X12. What [create_product] leaves alone: the listing of any other
    non-empty category, and the listing of orders, answer after it exactly
    what they answered before. *)
Theorem create_product_other_listings (p : Product.t) (db : Database) (c : string) :
  c ≠ "" →
  c ≠ Product.category p →
  (list_products (Some c) (create_product p db).2).1 = (list_products (Some c) db).1
  ∧ (list_orders (create_product p db).2).1 = (list_orders db).1.
Proof.
  intros Hc Hother. rewrite create_product_eq. cbn [fst snd]. split.
  - rewrite !list_products_eq, selected_products_create. simpl.
    apply String.eqb_neq in Hc. rewrite Hc, Product_stored_matches.
    assert (String.eqb (Product.category p) c = false) as ->
      by (apply String.eqb_neq; congruence).
    rewrite app_nil_r. by destruct (expose_ids _).
  - rewrite !list_orders_eq.
    rewrite collection_create_document_ne by done.
    by destruct (expose_ids _).
Qed.

Lemma create_product_other_listings_witness :
  "Pizza" ≠ ""
  ∧ "Pizza" ≠ Product.category (sample_product "Sides")
  ∧ (list_products (Some "Pizza")
       (create_product (sample_product "Sides") seeded_db).2).1
    = (list_products (Some "Pizza") seeded_db).1.
Proof.
  split; [discriminate|]. split; [discriminate|].
  refine (proj1 (create_product_other_listings (sample_product "Sides")
                   seeded_db "Pizza" _ _)); discriminate.
Defined.



(** ** The [Product] schema *)

(** X14. What validation guarantees of a product: a price that is a number
    with [0 <= price]; a rating that is either absent, which only an
    explicit null gives, or a number with [0 <= rating <= 5], which is 4.5
    when the body leaves it out; [in_stock] true unless the body says
    otherwise. *)
Theorem Product_validate_sound (body : Product.Body) (p : Product.t) :
  Product.validate body = Some p →
  (is_nan (Product.price p) = false ∧ (0 <=? Product.price p)%float = true)
  ∧ match Product.rating p with
    | None => Product.body_rating body = Some None
    | Some r =>
        is_nan r = false ∧ (0 <=? r)%float = true ∧ (r <=? 5)%float = true
        ∧ (Product.body_rating body = None → r = 4.5%float)
    end
  ∧ Product.in_stock p = default true (Product.body_in_stock body).
Proof.
  unfold Product.validate.
  destruct (ge_float 0 (Product.body_price body)) eqn:Hprice; [|done].
  destruct (Product.rating_validate (Product.body_rating body)) as [r|] eqn:Hrating;
    [|done].
  intros [= <-]. simpl. split; [split; [by apply ge_float_0_not_nan|done]|].
  split; [|done].
  unfold Product.rating_validate in Hrating.
  destruct (Product.body_rating body) as [[x|]|].
  - destruct (ge_float 0 x && (x <=? 5)%float) eqn:Hrange; [|done].
    injection Hrating as <-. apply andb_prop in Hrange as [Hge Hle].
    split; [by apply ge_float_0_not_nan|]. done.
  - by injection Hrating as <-.
  - injection Hrating as <-. done.
Qed.

Lemma Product_validate_sound_witness :
  Product.validate (sample_product_body None None) = Some (sample_product "Sides")
  ∧ Product.rating (sample_product "Sides") = Some 4.5%float
  ∧ Product.in_stock (sample_product "Sides") = true.
Proof.
  split; [reflexivity|].
  destruct (Product_validate_sound (sample_product_body None None)
              (sample_product "Sides") eq_refl) as (_ & _ & Hstock).
  split; [reflexivity|exact Hstock].
Defined.

(** A null rating is kept as absent; a rating above 5, below 0 or NaN is
    refused. *)
Example Product_validate_ratings :
  Product.rating <$> Product.validate (sample_product_body (Some None) None)
  = Some None
  ∧ Product.validate (sample_product_body (Some (Some 5.5%float)) None) = None
  ∧ Product.validate (sample_product_body (Some (Some (-1)%float)) None) = None
  ∧ Product.validate (sample_product_body (Some (Some nan)) None) = None.
Proof. repeat split; reflexivity. Qed.

(** ** Seeding, then listing *)

Lemma expose_ids_inserted (docs : list Doc) (first : ObjectId) :
  Forall (λ p, p !! "_id" = None) docs →
  expose_ids (with_ids first docs)
  = Return (imap (λ i p, <["id" := VStr (ObjectId_str (first + N.of_nat i)%N)]> p) docs).
Proof.
  intros Hfresh. revert first.
  induction Hfresh as [|p rest Hp _ IH]; intros first; [done|].
  unfold with_ids. rewrite !imap_cons. cbn [expose_ids].
  rewrite (expose_id_inserted _ _ Hp). cbn [mbind Result_bind].
  assert (Hshift : imap ((λ i p0, <["_id" := VObjectId (first + N.of_nat i)%N]> p0) ∘ S) rest
                   = with_ids (N.succ first) rest).
  { apply imap_ext. intros i x _. unfold compose. do 2 f_equal. lia. }
  rewrite Hshift, IH. cbn [mbind Result_bind]. rewrite N.add_0_r. do 2 f_equal.
  apply imap_ext. intros i x _. unfold compose. do 3 f_equal. lia.
Qed.



(** ** The store under any sequence of requests *)

Lemma route_ok (EmailStr : string → option string) (req : Request) (db : Database) :
  db_ok db → db_ok (route EmailStr req db).2.
Proof.
  intros Hok. destruct req as [|body|category| |body|]; simpl; unfold mbind, M_bind.
  - done.
  - unfold post_products. destruct (Product.validate body); [|done].
    rewrite create_product_eq. by apply create_document_ok.
  - rewrite list_products_eq. by destruct (expose_ids _).
  - pose proof (seed_products_ok db Hok). by destruct (seed_products db) as [[]].
  - pose proof (post_orders_ok EmailStr body db Hok).
    by destruct (post_orders EmailStr body db) as [[]].
  - rewrite list_orders_eq. by destruct (expose_ids _).
Qed.

Lemma serve_all_ok (EmailStr : string → option string) (reqs : list Request)
    (db : Database) :
  db_ok db → db_ok (serve_all EmailStr reqs db).
Proof.
  revert db. induction reqs as [|req rest IH]; intros db Hok; [done|].
  simpl. by apply IH, route_ok.
Qed.

(** Three requests in a row: seed, add a product, place an order. *)
Example serve_three_requests :
  count (list_products None
           (serve_all any_email
              [PostSeed; PostProduct (sample_product_body None None);
               PostOrder (sample_body None)] empty_db)).1
  = Return 5
  ∧ count (list_orders
             (serve_all any_email
                [PostSeed; PostProduct (sample_product_body None None);
                 PostOrder (sample_body None)] empty_db)).1
    = Return 1.
Proof. split; vm_compute; reflexivity. Qed.

(** The bound [ge=0] at its edges: +infinity and the negative zero pass,
    NaN and any negative number do not. *)
Example ge_float_edges :
  ge_float 0 infinity = true
  ∧ ge_float 0 (-0)%float = true
  ∧ ge_float 0 nan = false
  ∧ ge_float 0 (-0.01)%float = false.
Proof. repeat split; reflexivity. Qed.
